(** * Verification of [sft.py]: supervised fine-tuning launcher

    The script is glue code around external libraries.  This development
    embeds the two parts that carry logic of their own:

    - [formatting_prompts_func], the closure that turns one dataset row
      into instruction-formatted strings (module [Py] gives the fragment of
      Python's object model it relies on: subscripting, [len], f-strings,
      and the exceptions these raise);
    - [main] and the [__main__] block, as a sequence of calls to the
      external collaborators, recorded in a call trace. *)

From stdpp Require Import gmap strings list fin_maps.
From Stdlib Require Import ZArith Lia Ascii.

Local Set Warnings "-register-all".

Local Open Scope Z_scope.
Local Open Scope string_scope.

(** ** Python values and the operations the script applies to them *)

Module Py.

(** A dataset row is JSON-like: mappings have string keys.  A [string] is
    read as the sequence of characters of the Python [str]. *)
Inductive pyval : Type :=
| VNone
| VBool (b : bool)
| VInt (z : Z)
| VStr (s : string)
| VList (l : list pyval)
| VDict (d : gmap string pyval).

(** Exceptions raised by the built-in operations used, plus the errors
    that an external collaborator may raise. *)
Inductive exn : Type :=
| TypeError
| KeyError
| IndexError
| ExternalError (msg : string).

Inductive result (A : Type) : Type :=
| Ok (a : A)
| Raise (e : exn).
Global Arguments Ok {A} a.
Global Arguments Raise {A} e.

Global Instance result_ret : MRet result := λ A a, Ok a.
Global Instance result_bind : MBind result := λ A B f r,
  match r with
  | Ok a => f a
  | Raise e => Raise e
  end.

(** [len(v)] *)
Definition len (v : pyval) : result Z :=
  match v with
  | VList l => Ok (Z.of_nat (length l))
  | VDict d => Ok (Z.of_nat (size d))
  | VStr s => Ok (Z.of_nat (String.length s))
  | VNone | VBool _ | VInt _ => Raise TypeError
  end.

(** Sequence indexing [xs[i]] on a sequence of length [n]: a negative index
    counts from the end; out of range is an [IndexError]. *)
Definition seq_index {A : Type} (nth : nat → option A) (n : nat) (i : Z)
  : result A :=
  let j := if decide (i < 0) then i + Z.of_nat n else i in
  if decide (0 ≤ j < Z.of_nat n) then
    match nth (Z.to_nat j) with
    | Some x => Ok x
    | None => Raise IndexError
    end
  else Raise IndexError.

Definition string_nth (s : string) (k : nat) : option pyval :=
  (λ c, VStr (String c EmptyString)) <$> String.get k s.

(** [v[i]] for an integer [i] *)
Definition getitem_int (v : pyval) (i : Z) : result pyval :=
  match v with
  | VList l => seq_index (λ k, l !! k) (length l) i
  | VStr s => seq_index (string_nth s) (String.length s) i
  | VDict d => Raise KeyError
  | VNone | VBool _ | VInt _ => Raise TypeError
  end.

(** [v[k]] for a string [k] *)
Definition getitem_str (v : pyval) (k : string) : result pyval :=
  match v with
  | VDict d =>
      match d !! k with
      | Some x => Ok x
      | None => Raise KeyError
      end
  | VList _ | VStr _ => Raise TypeError
  | VNone | VBool _ | VInt _ => Raise TypeError
  end.

(** [range(n)] *)
Definition range (n : Z) : list Z := Z.of_nat <$> seq 0 (Z.to_nat n).

Section Format.
(** The built-in [str()] on objects other than [str]; it never raises on
    the values above. *)
Variable builtin_str : pyval → string.

(** A replacement field [{v}] of an f-string: [format(v, '')]. *)
Definition fstring_field (v : pyval) : string :=
  match v with
  | VStr s => s
  | _ => builtin_str v
  end.
End Format.

End Py.

Import Py.

Definition newline : string := String "010"%char EmptyString.

(** ** The formatting closure of [main] *)

Section Formatting.
Variable builtin_str : pyval → string.

(** The f-string [f"### User: {u}\n\n### Assistant: {a}"]. *)
Definition prompt_text (u a : pyval) : string :=
  "### User: " +:+ fstring_field builtin_str u +:+ newline +:+ newline
    +:+ "### Assistant: " +:+ fstring_field builtin_str a.

(** The body of the [for i in range(len(example['chosen']))] loop, run
    over the remaining indices with the current [output_texts]. *)
Fixpoint formatting_loop (example : pyval) (idxs : list Z)
    (output_texts : list string) : result (list string) :=
  match idxs with
  | [] => Ok output_texts
  | i :: rest =>
      c ← getitem_str example "chosen";
      p ← getitem_int c i;
      t ← getitem_int p 0;
      u ← getitem_str t "content";
      c' ← getitem_str example "chosen";
      p' ← getitem_int c' i;
      t' ← getitem_int p' 1;
      a ← getitem_str t' "content";
      let text := prompt_text u a in
      formatting_loop example rest (output_texts ++ [text])%list
  end.

Definition formatting_prompts_func (example : pyval) : result (list string) :=
  let output_texts : list string := [] in
  c ← getitem_str example "chosen";
  n ← len c;
  if decide (n = 2) then
    c0 ← getitem_str example "chosen";
    t0 ← getitem_int c0 0;
    u ← getitem_str t0 "content";
    c1 ← getitem_str example "chosen";
    t1 ← getitem_int c1 1;
    a ← getitem_str t1 "content";
    Ok (output_texts ++ [prompt_text u a])%list
  else
    c2 ← getitem_str example "chosen";
    n2 ← len c2;
    formatting_loop example (range n2) output_texts.
End Formatting.

(** ** The script around it: configuration records and collaborators *)

(** The fields of [ScriptArguments], [SFTConfig] and [ModelConfig] that the
    script reads or writes. *)
Record ScriptArguments : Type := {
  dataset_name : string;
  dataset_config : option string;
  dataset_train_split : string;
}.

Record SFTConfig : Type := {
  output_dir : string;
  push_to_hub : bool;
  gradient_checkpointing : bool;
  report_to : list string;
}.

Record ModelConfig : Type := {
  model_name_or_path : string;
  model_revision : string;
  trust_remote_code : bool;
}.

(** [config.architectures] is [None] or a list of names. *)
Record PretrainedConfig : Type := {
  architectures : option (list string);
}.

Record Tokenizer : Type := {
  pad_token : option string;
  eos_token : option string;
}.

Inductive torch_dtype : Type := bfloat16.

Section Script.
(** Objects of the external libraries, opaque to the script. *)
Context {PreTrainedModel QuantizationConfig PeftConfig Trainer : Type}.

(** A keyword-argument value of the model-loading call. *)
Inductive kwval : Type :=
| KwPy (v : pyval)
| KwDtype (d : torch_dtype)
| KwQuantization (q : QuantizationConfig).

(** The arguments of [SFTTrainer(...)]. *)
Record TrainerArgs : Type := {
  model : PreTrainedModel;
  args : SFTConfig;
  train_dataset : list pyval;
  processing_class : Tokenizer;
  peft_config : option PeftConfig;
  formatting_func : pyval → result (list string);
}.

(** Calls made to the external collaborators, with their arguments. *)
Inductive Call : Type :=
| CallAutoConfig (name : string)
| CallImageTextToText (name : string) (kwargs : gmap string kwval)
| CallCausalLM (name : string) (kwargs : gmap string kwval)
| CallAutoTokenizer (name : string) (trust use_fast : bool)
| CallLoadDataset (path : string) (name : option string)
| CallSFTTrainer (a : TrainerArgs)
| CallTrain (tr : Trainer)
| CallSaveModel (tr : Trainer) (dir : string)
| CallPushToHub (tr : Trainer) (dataset : string).

(** What the collaborators answer.  Pure helpers are functions; a call
    that can fail answers with a [result]. *)
Record World : Type := {
  builtin_str : pyval → string;
  parse_args_and_config : result (ScriptArguments * SFTConfig * ModelConfig);
  get_quantization_config : ModelConfig → option QuantizationConfig;
  get_kbit_device_map : pyval;
  get_peft_config : ModelConfig → option PeftConfig;
  MODEL_FOR_IMAGE_TEXT_TO_TEXT_MAPPING_NAMES_values : list string;
  AutoConfig_from_pretrained : string → result PretrainedConfig;
  AutoModelForImageTextToText_from_pretrained :
    string → gmap string kwval → result PreTrainedModel;
  AutoModelForCausalLM_from_pretrained :
    string → gmap string kwval → result PreTrainedModel;
  AutoTokenizer_from_pretrained : string → bool → bool → result Tokenizer;
  load_dataset : string → option string → result (gmap string (list pyval));
  SFTTrainer : TrainerArgs → result Trainer;
  train : Trainer → result unit;
  save_model : Trainer → string → result unit;
  trainer_push_to_hub : Trainer → string → result unit;
}.

(** A computation that calls collaborators: the calls made so far, in
    order, and the value or the exception that ended it. *)
Definition Traced (A : Type) : Type := list Call * result A.

Global Instance traced_ret : MRet Traced := λ A a, ([], Ok a).
Global Instance traced_bind : MBind Traced := λ A B f m,
  match m with
  | (t, Ok a) => let '(t', r) := f a in ((t ++ t')%list, r)
  | (t, Raise e) => (t, Raise e)
  end.

Definition call {A : Type} (c : Call) (r : result A) : Traced A := ([c], r).
Definition lift {A : Type} (r : result A) : Traced A := ([], r).

(** [config.architectures and any(arch in valid for arch in config.architectures)] *)
Definition declares_image_text (valid : list string) (config : PretrainedConfig)
  : bool :=
  match architectures config with
  | None => false
  | Some archs =>
      match archs with
      | [] => false
      | _ => existsb (λ arch, bool_decide (arch ∈ valid)) archs
      end
  end.

(** [model_kwargs = dict(revision=..., ..., quantization_config=...)] *)
Definition model_kwargs (w : World) (model_args : ModelConfig)
  : gmap string kwval :=
  let quantization_config := get_quantization_config w model_args in
  list_to_map [
    ("revision", KwPy (VStr (model_revision model_args)));
    ("trust_remote_code", KwPy (VBool (trust_remote_code model_args)));
    ("attn_implementation", KwPy (VStr "flash_attention_2"));
    ("torch_dtype", KwDtype bfloat16);
    ("use_cache", KwPy (VBool false));
    ("device_map",
      match quantization_config with
      | Some _ => KwPy (get_kbit_device_map w)
      | None => KwPy (VStr "auto")
      end);
    ("quantization_config",
      match quantization_config with
      | Some q => KwQuantization q
      | None => KwPy VNone
      end)
  ].

Definition main (w : World) (script_args : ScriptArguments)
    (training_args : SFTConfig) (model_args : ModelConfig) : Traced unit :=
  let model_kwargs := model_kwargs w model_args in
  config ← call (CallAutoConfig (model_name_or_path model_args))
    (AutoConfig_from_pretrained w (model_name_or_path model_args));
  let valid_image_text_architectures :=
    MODEL_FOR_IMAGE_TEXT_TO_TEXT_MAPPING_NAMES_values w in
  model ←
    (if declares_image_text valid_image_text_architectures config then
       let model_kwargs := delete "use_cache" model_kwargs in
       call (CallImageTextToText (model_name_or_path model_args) model_kwargs)
         (AutoModelForImageTextToText_from_pretrained w
            (model_name_or_path model_args) model_kwargs)
     else
       call (CallCausalLM (model_name_or_path model_args) model_kwargs)
         (AutoModelForCausalLM_from_pretrained w
            (model_name_or_path model_args) model_kwargs));
  tokenizer ←
    call (CallAutoTokenizer (model_name_or_path model_args)
            (trust_remote_code model_args) true)
      (AutoTokenizer_from_pretrained w (model_name_or_path model_args)
         (trust_remote_code model_args) true);
  let tokenizer :=
    match pad_token tokenizer with
    | None => {| pad_token := eos_token tokenizer;
                 eos_token := eos_token tokenizer |}
    | Some _ => tokenizer
    end in
  dataset ←
    call (CallLoadDataset (dataset_name script_args) (dataset_config script_args))
      (load_dataset w (dataset_name script_args) (dataset_config script_args));
  split ← lift
    match dataset !! dataset_train_split script_args with
    | Some rows => Ok rows
    | None => Raise KeyError
    end;
  let trainer_args :=
    {| model := model;
       args := training_args;
       train_dataset := split;
       processing_class := tokenizer;
       peft_config := get_peft_config w model_args;
       formatting_func := formatting_prompts_func (builtin_str w) |} in
  trainer ← call (CallSFTTrainer trainer_args) (SFTTrainer w trainer_args);
  _ ← call (CallTrain trainer) (train w trainer);
  _ ← call (CallSaveModel trainer (output_dir training_args))
        (save_model w trainer (output_dir training_args));
  if push_to_hub training_args then
    call (CallPushToHub trainer (dataset_name script_args))
      (trainer_push_to_hub w trainer (dataset_name script_args))
  else mret ().

(** The [if __name__ == "__main__"] block. *)
Definition script (w : World) : Traced unit :=
  '(script_args, training_args, model_args) ← lift (parse_args_and_config w);
  let training_args :=
    {| output_dir := output_dir training_args;
       push_to_hub := push_to_hub training_args;
       gradient_checkpointing := gradient_checkpointing training_args;
       report_to := [] |} in
  main w script_args training_args model_args.
End Script.

(** *** Shapes of the [chosen] field *)

(** A turn: a mapping with a ['content'] string. *)
Definition is_turn (v : pyval) (s : string) : Prop :=
  ∃ d, v = VDict d ∧ d !! "content" = Some (VStr s).

(** A two-element pair of turns. *)
Definition is_pair (v : pyval) (ua : string * string) : Prop :=
  ∃ x y, v = VList [x; y] ∧ is_turn x ua.1 ∧ is_turn y ua.2.

(** A mapping with a ['content'] key, whatever the value. *)
Definition has_content (v : pyval) : Prop :=
  ∃ d c, v = VDict d ∧ d !! "content" = Some c.

(** A list whose first two elements are mappings with a ['content'] key. *)
Definition pair_like (v : pyval) : Prop :=
  ∃ t0 t1 rest, v = VList (t0 :: t1 :: rest) ∧ has_content t0 ∧ has_content t1.

(** The two shapes the formatting function is written for. *)
Definition flat_pair (chosen : pyval) : Prop :=
  ∃ x y u a, chosen = VList [x; y] ∧ is_turn x u ∧ is_turn y a.

Definition pair_sequence (chosen : pyval) : Prop :=
  ∃ ps texts, chosen = VList ps ∧ length ps ≠ 2%nat ∧ Forall2 is_pair ps texts.

Definition malformed (chosen : pyval) : Prop :=
  ¬ (flat_pair chosen ∨ pair_sequence chosen).

(** The errors of the subscript and [len] operations themselves. *)
Definition raw_error (e : exn) : Prop :=
  e = TypeError ∨ e = KeyError ∨ e = IndexError.

(** The expected text for a user string and an assistant string. *)
Definition instruction_text (u a : string) : string :=
  "### User: " +:+ u +:+ newline +:+ newline +:+ "### Assistant: " +:+ a.

Definition turn (s : string) : pyval := VDict {[ "content" := VStr s ]}.

(** What one evaluation of the f-string yields on the object [p] whose
    elements 0 and 1 are read: the two subscript chains in source order.
    Both branches of [formatting_prompts_func] are instances of it. *)
Definition pair_text (builtin_str : pyval → string) (p : pyval) : result string :=
  t ← getitem_int p 0;
  u ← getitem_str t "content";
  t' ← getitem_int p 1;
  a ← getitem_str t' "content";
  Ok (prompt_text builtin_str u a).

(** The keyword arguments of a model-loading call. *)
Definition load_kwargs {PreTrainedModel QuantizationConfig PeftConfig Trainer : Type}
    (c : @Call PreTrainedModel QuantizationConfig PeftConfig Trainer)
  : option (gmap string (@kwval QuantizationConfig)) :=
  match c with
  | CallImageTextToText _ kwargs | CallCausalLM _ kwargs => Some kwargs
  | _ => None
  end.

(** Calls that persist the trained model. *)
Definition is_persist {PreTrainedModel QuantizationConfig PeftConfig Trainer : Type}
    (c : @Call PreTrainedModel QuantizationConfig PeftConfig Trainer) : bool :=
  match c with
  | CallSaveModel _ _ | CallPushToHub _ _ => true
  | _ => false
  end.



(** Some declared architecture is in the image-text-to-text registry. *)
Definition in_registry (valid : list string) (config : PretrainedConfig) : Prop :=
  ∃ archs arch, architectures config = Some archs ∧ arch ∈ archs ∧ arch ∈ valid.

(** *** A sample run

    The first command line of the script's docstring, with collaborators
    that all succeed: a causal language model, no quantization, a tokenizer
    without padding token, and a one-row dataset. *)

Definition sample_script_args : ScriptArguments :=
  {| dataset_name := "trl-lib/Capybara";
     dataset_config := None;
     dataset_train_split := "train" |}.

Definition sample_training_args : SFTConfig :=
  {| output_dir := "Qwen2-0.5B-SFT";
     push_to_hub := true;
     gradient_checkpointing := true;
     report_to := ["wandb"] |}.

Definition sample_model_args : ModelConfig :=
  {| model_name_or_path := "Qwen/Qwen2-0.5B";
     model_revision := "main";
     trust_remote_code := false |}.

Definition sample_tokenizer : Tokenizer :=
  {| pad_token := None; eos_token := Some "<|endoftext|>" |}.

(** The collaborators of the sample run, for a config declaring [archs]
    and a quantization helper answering [quant]. *)
Definition sample_world_with (archs : option (list string)) (quant : option unit)
  : @World unit unit unit unit :=
  {| builtin_str := λ _, "";
     parse_args_and_config :=
       Ok (sample_script_args, sample_training_args, sample_model_args);
     get_quantization_config := λ _, quant;
     get_kbit_device_map := VDict {[ "" := VInt 0 ]};
     get_peft_config := λ _, None;
     MODEL_FOR_IMAGE_TEXT_TO_TEXT_MAPPING_NAMES_values :=
       ["LlavaForConditionalGeneration"; "Qwen2VLForConditionalGeneration"];
     AutoConfig_from_pretrained := λ _, Ok {| architectures := archs |};
     AutoModelForImageTextToText_from_pretrained := λ _ _, Ok ();
     AutoModelForCausalLM_from_pretrained := λ _ _, Ok ();
     AutoTokenizer_from_pretrained := λ _ _ _, Ok sample_tokenizer;
     load_dataset :=
       λ _ _, Ok {[ "train" := [VDict {[ "chosen" := VList [turn "Hi"; turn "Hello!"] ]}] ]};
     SFTTrainer := λ _, Ok ();
     train := λ _, Ok ();
     save_model := λ _ _, Ok ();
     trainer_push_to_hub := λ _ _, Ok () |}.

Definition sample_world : @World unit unit unit unit :=
  sample_world_with (Some ["Qwen2ForCausalLM"]) None.

(** The trainer arguments of the sample run. *)
Definition sample_trainer_args (t : SFTConfig) : @TrainerArgs unit unit :=
  {| model := ();
     args := t;
     train_dataset := [VDict {[ "chosen" := VList [turn "Hi"; turn "Hello!"] ]}];
     processing_class :=
       {| pad_token := Some "<|endoftext|>"; eos_token := Some "<|endoftext|>" |};
     peft_config := None;
     formatting_func := formatting_prompts_func (λ _, "") |}.

(** Variants of the sample run: the parser's answer, the loaded dataset and
    the answer of [train()] are given; everything else is as in
    [sample_world]. *)
Definition sample_world_variant
    (parse : result (ScriptArguments * SFTConfig * ModelConfig))
    (ds : gmap string (list pyval)) (train_answer : result unit)
  : @World unit unit unit unit :=
  {| builtin_str := builtin_str sample_world;
     parse_args_and_config := parse;
     get_quantization_config := get_quantization_config sample_world;
     get_kbit_device_map := get_kbit_device_map sample_world;
     get_peft_config := get_peft_config sample_world;
     MODEL_FOR_IMAGE_TEXT_TO_TEXT_MAPPING_NAMES_values :=
       MODEL_FOR_IMAGE_TEXT_TO_TEXT_MAPPING_NAMES_values sample_world;
     AutoConfig_from_pretrained := AutoConfig_from_pretrained sample_world;
     AutoModelForImageTextToText_from_pretrained :=
       AutoModelForImageTextToText_from_pretrained sample_world;
     AutoModelForCausalLM_from_pretrained :=
       AutoModelForCausalLM_from_pretrained sample_world;
     AutoTokenizer_from_pretrained := AutoTokenizer_from_pretrained sample_world;
     load_dataset := λ _ _, Ok ds;
     SFTTrainer := SFTTrainer sample_world;
     train := λ _, train_answer;
     save_model := save_model sample_world;
     trainer_push_to_hub := trainer_push_to_hub sample_world |}.

(** ** Properties of the Python fragment *)

Lemma getitem_int_list (l : list pyval) (k : nat) (x : pyval) :
  l !! k = Some x → getitem_int (VList l) (Z.of_nat k) = Ok x.
Proof.
  intros Hk. pose proof (lookup_lt_Some _ _ _ Hk) as Hlt.
  unfold getitem_int, seq_index.
  destruct (decide (Z.of_nat k < 0)) as [Hn|_]; [lia|].
  destruct (decide (0 ≤ Z.of_nat k < Z.of_nat (length l))) as [_|Hn]; [|lia].
  by rewrite Nat2Z.id, Hk.
Qed.

Lemma getitem_int_head (x : pyval) (l : list pyval) :
  getitem_int (VList (x :: l)) 0 = Ok x.
Proof. by apply (getitem_int_list _ 0%nat). Qed.

Lemma getitem_int_second (x y : pyval) (l : list pyval) :
  getitem_int (VList (x :: y :: l)) 1 = Ok y.
Proof. by apply (getitem_int_list _ 1%nat). Qed.

Lemma getitem_int_ok_list (v : pyval) (k : nat) (x : pyval) :
  getitem_int v (Z.of_nat k) = Ok x →
  (∃ l, v = VList l ∧ l !! k = Some x) ∨ (∃ s, v = VStr s ∧ ∃ c, x = VStr c).
Proof.
  destruct v as [| | |s|l|d]; simpl; try discriminate.
  - intros H. right. exists s. split; [done|].
    unfold seq_index, string_nth in H. repeat case_decide; try discriminate;
      (destruct (String.get _ s); simpl in H; [|discriminate]);
      injection H as <-; eauto.
  - intros H. left. exists l. split; [done|].
    unfold seq_index in H. repeat case_decide; try discriminate; try lia.
    rewrite Nat2Z.id in H. destruct (l !! k); [|discriminate]. congruence.
Qed.

Lemma getitem_int_raw (v : pyval) (i : Z) (e : exn) :
  getitem_int v i = Raise e → raw_error e.
Proof.
  unfold raw_error, getitem_int, seq_index, string_nth.
  destruct v; intros H; repeat case_decide;
    repeat match type of H with
           | context [match ?o with _ => _ end] => destruct o
           end; simplify_eq; eauto.
Qed.

Lemma getitem_str_raw (v : pyval) (k : string) (e : exn) :
  getitem_str v k = Raise e → raw_error e.
Proof.
  unfold raw_error, getitem_str.
  destruct v; intros H;
    repeat match type of H with
           | context [match ?o with _ => _ end] => destruct o
           end; simplify_eq; eauto.
Qed.

Lemma getitem_str_ok (v : pyval) (k : string) (x : pyval) :
  getitem_str v k = Ok x ↔ ∃ d, v = VDict d ∧ d !! k = Some x.
Proof.
  split.
  - destruct v as [| | | | |d]; simpl; try discriminate.
    destruct (d !! k) eqn:E; [|discriminate]. intros [= <-]. eauto.
  - intros (d & -> & Hk). simpl. by rewrite Hk.
Qed.

Lemma len_raw (v : pyval) (e : exn) : len v = Raise e → raw_error e.
Proof. unfold raw_error. destruct v; simpl; intros H; simplify_eq; eauto. Qed.

(** ** The formatting function, branch by branch *)

Section FormattingFacts.
Variable builtin_str : pyval → string.
Local Abbreviation pair_text := (pair_text builtin_str).

Lemma pair_text_raw (p : pyval) (e : exn) :
  pair_text p = Raise e → raw_error e.
Proof.
  unfold pair_text. intros H.
  destruct (getitem_int p 0) as [t|e0] eqn:E0; simpl in H;
    [|injection H as <-; eauto using getitem_int_raw].
  destruct (getitem_str t "content") as [u|e1] eqn:E1; simpl in H;
    [|injection H as <-; eauto using getitem_str_raw].
  destruct (getitem_int p 1) as [t'|e2] eqn:E2; simpl in H;
    [|injection H as <-; eauto using getitem_int_raw].
  destruct (getitem_str t' "content") as [a|e3] eqn:E3; simpl in H;
    [discriminate|injection H as <-; eauto using getitem_str_raw].
Qed.

Lemma pair_text_ok (p : pyval) (s : string) :
  pair_text p = Ok s → pair_like p.
Proof.
  unfold pair_text. intros H.
  destruct (getitem_int p 0) as [t|] eqn:E0; simpl in H; [|discriminate].
  destruct (getitem_str t "content") as [u|] eqn:E1; simpl in H; [|discriminate].
  destruct (getitem_int p 1) as [t'|] eqn:E2; simpl in H; [|discriminate].
  destruct (getitem_str t' "content") as [a|] eqn:E3; simpl in H; [|discriminate].
  apply getitem_str_ok in E1 as (d & -> & Hd).
  apply getitem_str_ok in E3 as (d' & -> & Hd').
  apply (getitem_int_ok_list p 0) in E0 as [(l & -> & H0)|(? & _ & ? & ?)];
    [|discriminate].
  apply (getitem_int_ok_list _ 1) in E2 as [(l' & [= <-] & H1)|(? & ? & _)];
    [|discriminate].
  destruct l as [|t0 [|t1 rest]]; simplify_eq/=.
  exists (VDict d), (VDict d'), rest. unfold has_content. eauto 10.
Qed.

Lemma pair_text_pair_like (p : pyval) :
  pair_like p → ∃ s, pair_text p = Ok s.
Proof.
  intros (t0 & t1 & rest & -> & (d & c & -> & Hd) & (d' & c' & -> & Hd')).
  unfold pair_text. rewrite getitem_int_head, getitem_int_second.
  cbn [mbind result_bind getitem_str]. rewrite Hd, Hd'. eauto.
Qed.

Lemma pair_text_turns (x y : pyval) (rest : list pyval) (u a : string) :
  is_turn x u → is_turn y a →
  pair_text (VList (x :: y :: rest)) = Ok (instruction_text u a).
Proof.
  intros (d & -> & Hd) (d' & -> & Hd').
  unfold pair_text. rewrite getitem_int_head, getitem_int_second.
  cbn [mbind result_bind getitem_str]. by rewrite Hd, Hd'.
Qed.

(** The loop visits the elements of [chosen] in order and stops at the
    first one whose f-string raises. *)
Lemma formatting_loop_mapM (ex : gmap string pyval) (suf pre : list pyval)
    (acc : list string) :
  ex !! "chosen" = Some (VList (pre ++ suf)) →
  formatting_loop builtin_str (VDict ex)
    (Z.of_nat <$> seq (length pre) (length suf)) acc
  = (ts ← mapM pair_text suf; Ok (acc ++ ts)%list).
Proof.
  revert pre acc. induction suf as [|p suf IH]; intros pre acc Hex.
  - cbn. by rewrite app_nil_r.
  - cbn [length seq fmap list_fmap formatting_loop mapM].
    assert (getitem_str (VDict ex) "chosen" = Ok (VList (pre ++ p :: suf))) as ->
      by (apply getitem_str_ok; eauto).
    assert (getitem_int (VList (pre ++ p :: suf)) (Z.of_nat (length pre)) = Ok p)
      as Hp by (apply getitem_int_list, list_lookup_middle; reflexivity).
    cbn [mbind result_bind]. rewrite Hp. cbn [mbind result_bind].
    specialize (IH (pre ++ [p])%list).
    set (tail := mapM pair_text suf) in *. unfold pair_text.
    destruct (getitem_int p 0) as [t|]; cbn [mbind result_bind]; [|done].
    destruct (getitem_str t "content") as [u|]; cbn [mbind result_bind]; [|done].
    destruct (getitem_int p 1) as [t'|]; cbn [mbind result_bind]; [|done].
    destruct (getitem_str t' "content") as [a|]; cbn [mbind result_bind]; [|done].
    rewrite length_app, Nat.add_1_r in IH.
    rewrite IH by (by rewrite <- app_assoc).
    destruct tail as [ts|]; cbn; [|done].
    by rewrite <- app_assoc.
Qed.

(** The whole function: a two-element [chosen] is read as one pair, any
    other list as a sequence of pairs. *)
Lemma formatting_prompts_func_list (ex : gmap string pyval) (chosen : list pyval) :
  ex !! "chosen" = Some (VList chosen) →
  formatting_prompts_func builtin_str (VDict ex)
  = if decide (length chosen = 2%nat)
    then t ← pair_text (VList chosen); Ok [t]
    else mapM pair_text chosen.
Proof.
  intros Hex. unfold formatting_prompts_func.
  assert (getitem_str (VDict ex) "chosen" = Ok (VList chosen)) as ->
    by (apply getitem_str_ok; eauto).
  cbn [mbind result_bind len].
  destruct (decide (length chosen = 2%nat)) as [H2|H2].
  - rewrite decide_True by lia. unfold pair_text.
    destruct (getitem_int (VList chosen) 0) as [t|]; cbn [mbind result_bind]; [|done].
    destruct (getitem_str t "content") as [u|]; cbn [mbind result_bind]; [|done].
    destruct (getitem_int (VList chosen) 1) as [t'|]; cbn [mbind result_bind]; [|done].
    destruct (getitem_str t' "content") as [a|]; cbn [mbind result_bind]; done.
  - rewrite decide_False by lia. cbn [mbind result_bind len].
    unfold range. rewrite Nat2Z.id.
    pose proof (formatting_loop_mapM ex chosen [] [] Hex) as HL.
    cbn [length app] in HL. rewrite HL.
    by destruct (mapM pair_text chosen).
Qed.

Lemma mapM_pair_text_ok (ps : list pyval) (texts : list (string * string)) :
  Forall2 is_pair ps texts →
  mapM pair_text ps = Ok ((λ ua, instruction_text ua.1 ua.2) <$> texts).
Proof.
  induction 1 as [|p [u a] ps texts (x & y & -> & Hx & Hy) _ IH]; [done|].
  cbn [mapM]. rewrite (pair_text_turns x y [] u a) by done.
  cbn [mbind result_bind]. by rewrite IH.
Qed.

Lemma mapM_pair_text_raise (ps : list pyval) (p : pyval) :
  p ∈ ps → ¬ pair_like p → ∃ e, mapM pair_text ps = Raise e ∧ raw_error e.
Proof.
  intros Hin Hp. induction ps as [|q ps IH]; [by apply elem_of_nil in Hin|].
  cbn [mapM]. destruct (pair_text q) as [s|e] eqn:Eq.
  - apply elem_of_cons in Hin as [->|Hin];
      [by apply pair_text_ok in Eq|].
    destruct (IH Hin) as (e & -> & He). cbn. eauto.
  - cbn. eauto using pair_text_raw.
Qed.

Lemma formatting_loop_raw (example : pyval) (idxs : list Z)
    (acc : list string) (e : exn) :
  formatting_loop builtin_str example idxs acc = Raise e → raw_error e.
Proof.
  revert acc. induction idxs as [|i idxs IH]; intros acc; [discriminate|].
  cbn [formatting_loop].
  destruct (getitem_str example "chosen") as [c|] eqn:Ec;
    cbn [mbind result_bind]; [|intros [= <-]; eauto using getitem_str_raw].
  destruct (getitem_int c i) as [p|] eqn:Ep;
    cbn [mbind result_bind]; [|intros [= <-]; eauto using getitem_int_raw].
  destruct (getitem_int p 0) as [t|] eqn:Et;
    cbn [mbind result_bind]; [|intros [= <-]; eauto using getitem_int_raw].
  destruct (getitem_str t "content") as [u|] eqn:Eu;
    cbn [mbind result_bind]; [|intros [= <-]; eauto using getitem_str_raw].
  destruct (getitem_int p 1) as [t'|] eqn:Et';
    cbn [mbind result_bind]; [|intros [= <-]; eauto using getitem_int_raw].
  destruct (getitem_str t' "content") as [a|] eqn:Ea;
    cbn [mbind result_bind]; [|intros [= <-]; eauto using getitem_str_raw].
  apply IH.
Qed.

Lemma formatting_prompts_func_raw (example : pyval) (e : exn) :
  formatting_prompts_func builtin_str example = Raise e → raw_error e.
Proof.
  unfold formatting_prompts_func.
  destruct (getitem_str example "chosen") as [c|] eqn:Ec;
    cbn [mbind result_bind]; [|intros [= <-]; eauto using getitem_str_raw].
  destruct (len c) as [n|] eqn:En;
    cbn [mbind result_bind]; [|intros [= <-]; eauto using len_raw].
  destruct (decide (n = 2)) as [_|_].
  - destruct (getitem_int c 0) as [t|] eqn:Et;
      cbn [mbind result_bind]; [|intros [= <-]; eauto using getitem_int_raw].
    destruct (getitem_str t "content") as [u|] eqn:Eu;
      cbn [mbind result_bind]; [|intros [= <-]; eauto using getitem_str_raw].
    destruct (getitem_int c 1) as [t'|] eqn:Et';
      cbn [mbind result_bind]; [|intros [= <-]; eauto using getitem_int_raw].
    destruct (getitem_str t' "content") as [a|] eqn:Ea;
      cbn [mbind result_bind]; [|intros [= <-]; eauto using getitem_str_raw].
    discriminate.
  - apply formatting_loop_raw.
Qed.

Lemma mapM_pair_text_all (ps : list pyval) :
  Forall pair_like ps → ∃ ts, mapM pair_text ps = Ok ts ∧ length ts = length ps.
Proof.
  induction 1 as [|p ps Hp _ (ts & IH & Hlen)]; [by exists []|].
  destruct (pair_text_pair_like p Hp) as [s Hs].
  exists (s :: ts). cbn [mapM]. rewrite Hs, IH. cbn. by rewrite Hlen.
Qed.
End FormattingFacts.

(** ** Claims about the formatting function *)

Lemma is_turn_inj (v : pyval) (s s' : string) : is_turn v s → is_turn v s' → s = s'.
Proof. intros (d & -> & Hd) (d' & [= <-] & Hd'). congruence. Qed.

(** C1.  When [chosen] has exactly two elements, each a mapping with a
    ['content'] string, the formatting function returns the one-element
    list whose string is "### User: ", the first content, two newlines,
    "### Assistant: " and the second content. *)
Theorem formatting_flat_pair (builtin_str : pyval → string)
    (ex : gmap string pyval) (x y : pyval) (u a : string) :
  ex !! "chosen" = Some (VList [x; y]) →
  is_turn x u →
  is_turn y a →
  formatting_prompts_func builtin_str (VDict ex)
  = Ok ["### User: " +:+ u +:+ newline +:+ newline +:+ "### Assistant: " +:+ a].
Proof.
  intros Hex Hx Hy.
  rewrite (formatting_prompts_func_list _ _ _ Hex). cbn [length].
  rewrite decide_True by done.
  by rewrite (pair_text_turns builtin_str x y [] u a).
Qed.

(** The end-to-end scenario of C1: [{"chosen": [{"content": "Hi"},
    {"content": "Hello!"}]}]. *)
Lemma formatting_flat_pair_witness :
  formatting_prompts_func (λ _, "")
    (VDict {[ "chosen" := VList [turn "Hi"; turn "Hello!"] ]})
  = Ok ["### User: Hi

### Assistant: Hello!"].
Proof.
  apply (formatting_flat_pair (λ _, "") {[ "chosen" := VList [turn "Hi"; turn "Hello!"] ]}
           (turn "Hi") (turn "Hello!") "Hi" "Hello!").
  - reflexivity.
  - exists {[ "content" := VStr "Hi" ]}. split; reflexivity.
  - exists {[ "content" := VStr "Hello!" ]}. split; reflexivity.
Defined.

(** C2.  When [chosen] is a list of N two-element pairs of turns, N other
    than 2, the formatting function returns N strings, the i-th built from
    the contents of [chosen[i][0]] and [chosen[i][1]], in the order of the
    pairs. *)
Theorem formatting_pair_sequence (builtin_str : pyval → string)
    (ex : gmap string pyval) (ps : list pyval) (texts : list (string * string)) :
  ex !! "chosen" = Some (VList ps) →
  length ps ≠ 2%nat →
  Forall2 is_pair ps texts →
  ∃ out : list string,
    formatting_prompts_func builtin_str (VDict ex) = Ok out
    ∧ length out = length ps
    ∧ ∀ (i : nat) (x y : pyval) (u a : string),
        ps !! i = Some (VList [x; y]) → is_turn x u → is_turn y a →
        out !! i
        = Some ("### User: " +:+ u +:+ newline +:+ newline
                  +:+ "### Assistant: " +:+ a).
Proof.
  intros Hex Hn Hps.
  exists ((λ ua, instruction_text ua.1 ua.2) <$> texts).
  rewrite (formatting_prompts_func_list _ _ _ Hex), decide_False by done.
  split; [by apply mapM_pair_text_ok|].
  split; [by rewrite length_fmap, (Forall2_length _ _ _ Hps)|].
  intros i x y u a Hi Hx Hy.
  destruct (Forall2_lookup_l _ _ _ _ _ Hps Hi) as ([u' a'] & Hti & x' & y' & [= <- <-] & Hx' & Hy').
  rewrite list_lookup_fmap, Hti. cbn.
  by rewrite (is_turn_inj _ _ _ Hx Hx'), (is_turn_inj _ _ _ Hy Hy').
Qed.

(** The end-to-end scenario of C2, with a third pair so that N is not 2. *)
Lemma formatting_pair_sequence_witness :
  ∃ out : list string,
    formatting_prompts_func (λ _, "")
      (VDict {[ "chosen" := VList [VList [turn "A"; turn "B"];
                                   VList [turn "C"; turn "D"];
                                   VList [turn "E"; turn "F"]] ]})
    = Ok out
    ∧ length out = 3%nat
    ∧ out !! 2%nat = Some "### User: E

### Assistant: F".
Proof.
  destruct (formatting_pair_sequence (λ _, "")
              {[ "chosen" := VList [VList [turn "A"; turn "B"];
                                    VList [turn "C"; turn "D"];
                                    VList [turn "E"; turn "F"]] ]}
              [VList [turn "A"; turn "B"]; VList [turn "C"; turn "D"];
               VList [turn "E"; turn "F"]]
              [("A", "B"); ("C", "D"); ("E", "F")]) as (out & Hout & Hlen & Hith).
  - reflexivity.
  - cbn. lia.
  - repeat constructor;
      (eexists _, _; split; [reflexivity|];
       split; (eexists; split; reflexivity)).
  - exists out. split; [exact Hout|]. split; [exact Hlen|].
    apply (Hith 2%nat (turn "E") (turn "F") "E" "F"); [reflexivity| |];
      (eexists; split; reflexivity).
Defined.

(** C9.  An empty [chosen] list is formatted to the empty list: the loop
    body never runs and nothing is raised. *)
Theorem formatting_empty_chosen (builtin_str : pyval → string)
    (ex : gmap string pyval) :
  ex !! "chosen" = Some (VList []) →
  formatting_prompts_func builtin_str (VDict ex) = Ok [].
Proof.
  intros Hex. by rewrite (formatting_prompts_func_list _ _ _ Hex).
Qed.

Lemma formatting_empty_chosen_witness :
  formatting_prompts_func (λ _, "") (VDict {[ "chosen" := VList [] ]}) = Ok [].
Proof.
  apply (formatting_empty_chosen (λ _, "") {[ "chosen" := VList [] ]}).
  reflexivity.
Defined.

(** A list of exactly two pairs takes the two-element branch, where
    [chosen[0]['content']] subscripts a list with a string. *)
Lemma formatting_two_pairs_raises :
  formatting_prompts_func (λ _, "")
    (VDict {[ "chosen" := VList [VList [turn "A"; turn "B"];
                                 VList [turn "C"; turn "D"]] ]})
  = Raise TypeError.
Proof. reflexivity. Qed.

(** C7, as stated, fails: a [chosen] outside both expected shapes (its one
    pair has three elements) is formatted without any error, the third
    element being ignored. *)
Lemma formatting_malformed_returns :
  malformed (VList [VList [turn "A"; turn "B"; turn "C"]])
  ∧ formatting_prompts_func (λ _, "")
      (VDict {[ "chosen" := VList [VList [turn "A"; turn "B"; turn "C"]] ]})
    = Ok ["### User: A

### Assistant: B"].
Proof.
  split; [|reflexivity].
  intros [(x & y & u & a & [=] & _)|(ps & texts & [= <-] & _ & Hps)].
  apply Forall2_cons_inv_l in Hps as (t & ts & (x & y & [=] & _) & _).
Qed.

(** Likewise a ['content'] that is not a string is not rejected: it is
    rendered by [str()]. *)
Lemma formatting_non_string_content (builtin_str : pyval → string) :
  formatting_prompts_func builtin_str
    (VDict {[ "chosen" := VList [VDict {[ "content" := VNone ]}; turn "Hello!"] ]})
  = Ok ["### User: " +:+ builtin_str VNone +:+ newline +:+ newline
          +:+ "### Assistant: Hello!"].
Proof. reflexivity. Qed.

(** C7, amended.  On a [chosen] list of exactly two elements one of which
    is not a mapping with a ['content'] key, and on a [chosen] list of
    another length one of whose elements is not a list starting with two
    such mappings (a pair missing an element, say), the formatting function
    raises the [TypeError], [KeyError] or [IndexError] of the failing
    subscript.  Nothing else is checked: when every subscript succeeds a
    list is returned, and no exception other than those three can come out
    of the function on any input. *)
Theorem formatting_malformed_raises (builtin_str : pyval → string)
    (ex : gmap string pyval) (chosen : list pyval) :
  ex !! "chosen" = Some (VList chosen) →
  ((length chosen = 2%nat ∧ (∃ x, x ∈ chosen ∧ ¬ has_content x)
    ∨ length chosen ≠ 2%nat ∧ (∃ p, p ∈ chosen ∧ ¬ pair_like p)) →
   ∃ e, formatting_prompts_func builtin_str (VDict ex) = Raise e ∧ raw_error e)
  ∧ ((length chosen = 2%nat ∧ Forall has_content chosen
      ∨ length chosen ≠ 2%nat ∧ Forall pair_like chosen) →
     ∃ out, formatting_prompts_func builtin_str (VDict ex) = Ok out)
  ∧ (∀ (example : pyval) (e : exn),
       formatting_prompts_func builtin_str example = Raise e → raw_error e).
Proof.
  intros Hex. rewrite (formatting_prompts_func_list _ _ _ Hex).
  split; [|split].
  - intros [[H2 (x & Hx & Hnc)]|[H2 (p & Hp & Hnp)]].
    + rewrite decide_True by done.
      destruct (pair_text builtin_str (VList chosen)) as [s|e] eqn:E.
      * exfalso. apply pair_text_ok in E as (t0 & t1 & rest & [= ->] & H0 & H1).
        destruct rest; [|discriminate].
        apply elem_of_cons in Hx as [->|Hx]; [done|].
        apply list_elem_of_singleton in Hx as ->. done.
      * exists e. split; [done|]. by apply pair_text_raw in E.
    + rewrite decide_False by done. by apply (mapM_pair_text_raise _ _ p).
  - intros [[H2 Hall]|[H2 Hall]].
    + rewrite decide_True by done.
      destruct chosen as [|t0 [|t1 [|? ?]]]; try discriminate.
      apply Forall_cons in Hall as [H0 Hall]. apply Forall_cons in Hall as [H1 _].
      destruct (pair_text_pair_like builtin_str (VList [t0; t1])) as [s ->];
        [exists t0, t1, []; eauto|]. cbn. eauto.
    + rewrite decide_False by done.
      destruct (mapM_pair_text_all builtin_str _ Hall) as (ts & -> & _). eauto.
  - apply formatting_prompts_func_raw.
Qed.

(** Two elements that are strings, not turn mappings: a [TypeError]. *)
Lemma formatting_malformed_raises_witness :
  ∃ e, formatting_prompts_func (λ _, "")
         (VDict {[ "chosen" := VList [VStr "Hi"; VStr "Hello!"] ]}) = Raise e
       ∧ raw_error e.
Proof.
  apply (formatting_malformed_raises (λ _, "")
           {[ "chosen" := VList [VStr "Hi"; VStr "Hello!"] ]}
           [VStr "Hi"; VStr "Hello!"]).
  - reflexivity.
  - left. split; [reflexivity|].
    exists (VStr "Hi"). split; [apply list_elem_of_here|].
    intros (d & c & [=] & _).
Defined.

(** ** Further properties of the formatting function *)

Section FormattingMore.
Variable builtin_str : pyval → string.
Local Abbreviation pair_text' := (pair_text builtin_str).
Local Abbreviation format' := (formatting_prompts_func builtin_str).

Lemma formatting_loop_length (example : pyval) (idxs : list Z)
    (acc out : list string) :
  formatting_loop builtin_str example idxs acc = Ok out →
  length out = (length acc + length idxs)%nat.
Proof.
  revert acc. induction idxs as [|i idxs IH]; intros acc.
  - intros [= <-]. cbn. lia.
  - cbn [formatting_loop].
    destruct (getitem_str example "chosen") as [c|];
      cbn [mbind result_bind]; [|discriminate].
    destruct (getitem_int c i) as [p|]; cbn [mbind result_bind]; [|discriminate].
    destruct (getitem_int p 0) as [t|]; cbn [mbind result_bind]; [|discriminate].
    destruct (getitem_str t "content") as [u|];
      cbn [mbind result_bind]; [|discriminate].
    destruct (getitem_int p 1) as [t'|]; cbn [mbind result_bind]; [|discriminate].
    destruct (getitem_str t' "content") as [a|];
      cbn [mbind result_bind]; [|discriminate].
    intros H%IH. rewrite H, length_app. cbn. lia.
Qed.

Lemma formatting_loop_shape (P : string → Prop) (example : pyval)
    (idxs : list Z) (acc out : list string) :
  (∀ u a, P (prompt_text builtin_str u a)) →
  Forall P acc →
  formatting_loop builtin_str example idxs acc = Ok out →
  Forall P out.
Proof.
  intros HP. revert acc. induction idxs as [|i idxs IH]; intros acc Hacc.
  - by intros [= <-].
  - cbn [formatting_loop].
    destruct (getitem_str example "chosen") as [c|];
      cbn [mbind result_bind]; [|discriminate].
    destruct (getitem_int c i) as [p|]; cbn [mbind result_bind]; [|discriminate].
    destruct (getitem_int p 0) as [t|]; cbn [mbind result_bind]; [|discriminate].
    destruct (getitem_str t "content") as [u|];
      cbn [mbind result_bind]; [|discriminate].
    destruct (getitem_int p 1) as [t'|]; cbn [mbind result_bind]; [|discriminate].
    destruct (getitem_str t' "content") as [a|];
      cbn [mbind result_bind]; [|discriminate].
    apply IH. apply Forall_app. split; [done|]. by constructor.
Qed.

Lemma len_nonneg (v : pyval) (n : Z) : len v = Ok n → (0 ≤ n)%Z.
Proof. destruct v; simpl; intros H; simplify_eq; lia. Qed.

Lemma mapM_pair_text_app (ps qs : list pyval) :
  mapM pair_text' (ps ++ qs)
  = (a ← mapM pair_text' ps; b ← mapM pair_text' qs; Ok (a ++ b)%list).
Proof.
  induction ps as [|p ps IH]; cbn [app mapM].
  - cbn. by destruct (mapM pair_text' qs).
  - destruct (pair_text' p) as [s|]; cbn [mbind result_bind]; [|done].
    rewrite IH.
    destruct (mapM pair_text' ps) as [a|]; cbn [mbind result_bind]; [|done].
    by destruct (mapM pair_text' qs).
Qed.

(** X1.  The number of strings returned is fixed by [len(example['chosen'])]
    alone: one when it is 2, and that length otherwise. *)
Theorem formatting_output_count (example : pyval) (out : list string) :
  format' example = Ok out →
  ∃ c n,
    getitem_str example "chosen" = Ok c
    ∧ len c = Ok n
    ∧ Z.of_nat (length out) = if decide (n = 2) then 1 else n.
Proof.
  unfold formatting_prompts_func.
  destruct (getitem_str example "chosen") as [c|] eqn:Ec;
    cbn [mbind result_bind]; [|discriminate].
  destruct (len c) as [n|] eqn:En; cbn [mbind result_bind]; [|discriminate].
  intros H. exists c, n. split; [done|]. split; [done|].
  pose proof (len_nonneg _ _ En) as Hn.
  destruct (decide (n = 2)) as [_|_].
  - destruct (getitem_int c 0) as [t|]; cbn [mbind result_bind] in H; [|discriminate].
    destruct (getitem_str t "content") as [u|];
      cbn [mbind result_bind] in H; [|discriminate].
    destruct (getitem_int c 1) as [t'|]; cbn [mbind result_bind] in H; [|discriminate].
    destruct (getitem_str t' "content") as [a|];
      cbn [mbind result_bind] in H; [|discriminate].
    by injection H as <-.
  - apply formatting_loop_length in H. rewrite H. unfold range.
    rewrite length_fmap, length_seq. cbn [length]. lia.
Qed.

(** X2.  Whatever the input, every string returned has the instruction layout:
    "### User: ", a user text, a blank line, "### Assistant: " and an
    assistant text. *)
Theorem formatting_output_shape (example : pyval) (out : list string) (s : string) :
  format' example = Ok out →
  s ∈ out →
  ∃ u a : string,
    s = "### User: " +:+ u +:+ newline +:+ newline +:+ "### Assistant: " +:+ a.
Proof.
  intros H Hs.
  set (P := λ s : string, ∃ u a : string,
         s = "### User: " +:+ u +:+ newline +:+ newline +:+ "### Assistant: " +:+ a).
  assert (∀ u a, P (prompt_text builtin_str u a)) as HP
    by (intros u a; unfold P, prompt_text; eauto).
  cut (Forall P out); [intros Hall; by apply (proj1 (Forall_forall P out) Hall)|].
  revert H. unfold formatting_prompts_func.
  destruct (getitem_str example "chosen") as [c|];
    cbn [mbind result_bind]; [|discriminate].
  destruct (len c) as [n|]; cbn [mbind result_bind]; [|discriminate].
  destruct (decide (n = 2)) as [_|_].
  - destruct (getitem_int c 0) as [t|]; cbn [mbind result_bind]; [|discriminate].
    destruct (getitem_str t "content") as [u|];
      cbn [mbind result_bind]; [|discriminate].
    destruct (getitem_int c 1) as [t'|]; cbn [mbind result_bind]; [|discriminate].
    destruct (getitem_str t' "content") as [a|];
      cbn [mbind result_bind]; [|discriminate].
    intros [= <-]. by repeat constructor.
  - by apply formatting_loop_shape.
Qed.

(** X3.  A row without a ['chosen'] key raises [KeyError]; a ['chosen'] that has
    no length ([None], a boolean, an integer) raises [TypeError]. *)
Theorem formatting_missing_or_unsized (ex : gmap string pyval) :
  (ex !! "chosen" = None → format' (VDict ex) = Raise KeyError)
  ∧ (∀ c, ex !! "chosen" = Some c →
       c = VNone ∨ (∃ b, c = VBool b) ∨ (∃ z, c = VInt z) →
       format' (VDict ex) = Raise TypeError).
Proof.
  split.
  - intros Hex. unfold formatting_prompts_func. cbn [getitem_str]. by rewrite Hex.
  - intros c Hex Hc. unfold formatting_prompts_func. cbn [getitem_str].
    rewrite Hex. by destruct Hc as [->|[[b ->]|[z ->]]].
Qed.

(** X4.  A ['chosen'] of exactly two elements whose first is itself a list (a
    batch of exactly two pairs, say) is never formatted: the two-element
    branch subscripts that list with ['content'] and raises [TypeError]. *)
Theorem formatting_two_lists_raise (ex : gmap string pyval)
    (p : list pyval) (y : pyval) :
  ex !! "chosen" = Some (VList [VList p; y]) →
  format' (VDict ex) = Raise TypeError.
Proof.
  intros Hex. rewrite (formatting_prompts_func_list _ _ _ Hex).
  cbn [length]. rewrite decide_True by done.
  unfold pair_text. by rewrite getitem_int_head.
Qed.

(** X5.  A single exchange gives the same result, value or exception, whether
    the row holds it flat as [[x, y]] or as the one-pair sequence
    [[[x, y]]]. *)
Theorem formatting_single_pair_either_shape (ex ex' : gmap string pyval)
    (x y : pyval) :
  ex !! "chosen" = Some (VList [x; y]) →
  ex' !! "chosen" = Some (VList [VList [x; y]]) →
  format' (VDict ex) = format' (VDict ex').
Proof.
  intros Hex Hex'.
  rewrite (formatting_prompts_func_list _ _ _ Hex),
    (formatting_prompts_func_list _ _ _ Hex').
  cbn [length mapM]. rewrite decide_True, decide_False by done.
  by destruct (pair_text' (VList [x; y])).
Qed.

(** X6.  Only elements 0 and 1 of each pair are read: in a sequence of pairs,
    further elements of a pair (and further keys of a turn) do not change
    the output. *)
Theorem formatting_ignores_extras (ex : gmap string pyval) (ps : list pyval)
    (texts : list (string * string)) :
  ex !! "chosen" = Some (VList ps) →
  length ps ≠ 2%nat →
  Forall2 (λ p ua, ∃ x y rest,
             p = VList (x :: y :: rest) ∧ is_turn x ua.1 ∧ is_turn y ua.2)
    ps texts →
  format' (VDict ex)
  = Ok ((λ ua, "### User: " +:+ ua.1 +:+ newline +:+ newline
                 +:+ "### Assistant: " +:+ ua.2) <$> texts).
Proof.
  intros Hex Hn Hps.
  rewrite (formatting_prompts_func_list _ _ _ Hex), decide_False by done.
  clear Hex Hn.
  induction Hps as [|p [u a] ps texts (x & y & rest & -> & Hx & Hy) _ IH]; [done|].
  cbn [mapM]. rewrite (pair_text_turns builtin_str x y rest u a) by done.
  cbn [mbind result_bind]. by rewrite IH.
Qed.

(** X7.  The ['content'] values are not type-checked: in a flat pair of mappings
    that have the key, each value is rendered by the f-string, a string as
    itself and anything else through [str()]. *)
Theorem formatting_content_not_checked (ex d0 d1 : gmap string pyval)
    (c0 c1 : pyval) :
  ex !! "chosen" = Some (VList [VDict d0; VDict d1]) →
  d0 !! "content" = Some c0 →
  d1 !! "content" = Some c1 →
  format' (VDict ex)
  = Ok ["### User: " +:+ fstring_field builtin_str c0 +:+ newline +:+ newline
          +:+ "### Assistant: " +:+ fstring_field builtin_str c1].
Proof.
  intros Hex H0 H1. rewrite (formatting_prompts_func_list _ _ _ Hex).
  cbn [length]. rewrite decide_True by done.
  unfold pair_text. rewrite getitem_int_head, getitem_int_second.
  cbn [mbind result_bind getitem_str]. by rewrite H0, H1.
Qed.

(** X8.  Formatting distributes over concatenation of pair sequences: when two
    sequences are formatted without error, their concatenation is formatted
    to the concatenation of the outputs (no length involved being 2). *)
Theorem formatting_concat (ex1 ex2 ex : gmap string pyval) (ps qs : list pyval)
    (a b : list string) :
  ex1 !! "chosen" = Some (VList ps) →
  ex2 !! "chosen" = Some (VList qs) →
  ex !! "chosen" = Some (VList (ps ++ qs)) →
  length ps ≠ 2%nat → length qs ≠ 2%nat → length (ps ++ qs) ≠ 2%nat →
  format' (VDict ex1) = Ok a →
  format' (VDict ex2) = Ok b →
  format' (VDict ex) = Ok (a ++ b)%list.
Proof.
  intros H1 H2 H Hp Hq Hpq.
  rewrite (formatting_prompts_func_list _ _ _ H1),
    (formatting_prompts_func_list _ _ _ H2),
    (formatting_prompts_func_list _ _ _ H), !decide_False by done.
  rewrite mapM_pair_text_app. by intros -> ->.
Qed.

(** X9.  The call is all-or-nothing and fails at the first bad pair: when the
    pairs before it are sound, the exception raised is the one of that
    pair, whatever follows it. *)
Theorem formatting_first_failure (ex : gmap string pyval)
    (good rest : list pyval) (bad : pyval) (e : exn) :
  ex !! "chosen" = Some (VList (good ++ bad :: rest)) →
  length (good ++ bad :: rest) ≠ 2%nat →
  Forall pair_like good →
  pair_text' bad = Raise e →
  format' (VDict ex) = Raise e.
Proof.
  intros Hex Hn Hgood Hbad.
  rewrite (formatting_prompts_func_list _ _ _ Hex), decide_False by done.
  rewrite mapM_pair_text_app.
  destruct (mapM_pair_text_all builtin_str _ Hgood) as (ts & -> & _).
  cbn [mbind result_bind mapM]. by rewrite Hbad.
Qed.

(** X10.  A ['chosen'] that is a non-empty string, or a non-empty mapping, passes
    [len] but never formats: the string's characters cannot be subscripted
    with ['content'] ([TypeError]), and the mapping has no key [0]
    ([KeyError]). *)
Theorem formatting_string_or_mapping (ex : gmap string pyval) :
  (∀ s, ex !! "chosen" = Some (VStr s) → s ≠ "" →
     format' (VDict ex) = Raise TypeError)
  ∧ (∀ d : gmap string pyval, ex !! "chosen" = Some (VDict d) → d ≠ ∅ →
       format' (VDict ex) = Raise KeyError).
Proof.
  split.
  - intros s Hex Hs. destruct s as [|c s]; [done|].
    unfold formatting_prompts_func. cbn [getitem_str]. rewrite Hex.
    cbn [mbind result_bind len String.length].
    assert (∀ c' s', getitem_int (VStr (String c' s')) 0
                     = Ok (VStr (String c' EmptyString))) as Hhead.
    { intros c' s'. unfold getitem_int, seq_index. cbn [String.length]. cbv zeta.
      repeat case_decide; try lia. done. }
    destruct (decide (Z.of_nat (S (String.length s)) = 2)) as [_|_].
    + by rewrite Hhead.
    + unfold range. rewrite Nat2Z.id. cbn [seq fmap list_fmap formatting_loop].
      cbn [getitem_str]. rewrite Hex. cbn [mbind result_bind].
      change (Z.of_nat 0) with 0. rewrite Hhead. cbn [mbind result_bind].
      by rewrite Hhead.
  - intros d Hex Hd.
    unfold formatting_prompts_func. cbn [getitem_str]. rewrite Hex.
    cbn [mbind result_bind len].
    destruct (decide (Z.of_nat (size d) = 2)) as [_|_]; [done|].
    unfold range. rewrite Nat2Z.id.
    destruct (size d) as [|k] eqn:Hsz; [by apply map_size_empty_inv in Hsz|].
    cbn [seq fmap list_fmap formatting_loop getitem_str]. by rewrite Hex.
Qed.
End FormattingMore.

(** ** The call trace of [main] *)

Section ScriptFacts.
Context {PreTrainedModel QuantizationConfig PeftConfig Trainer : Type}.
Local Abbreviation World' :=
  (@World PreTrainedModel QuantizationConfig PeftConfig Trainer).
Local Abbreviation Call' :=
  (@Call PreTrainedModel QuantizationConfig PeftConfig Trainer).
Local Abbreviation Traced' :=
  (@Traced PreTrainedModel QuantizationConfig PeftConfig Trainer).
Implicit Types (w : World') (s : ScriptArguments) (t : SFTConfig)
  (m : ModelConfig) (cfg : PretrainedConfig).

Lemma traced_bind_call {A B : Type} (c : Call') (r : result A) (k : A → Traced' B) :
  call c r ≫= k
  = match r with
    | Ok a => (c :: (k a).1, (k a).2)
    | Raise e => ([c], Raise e)
    end.
Proof. destruct r as [a|e]; cbn; [by destruct (k a)|done]. Qed.

Lemma traced_bind_lift {A B : Type} (r : result A) (k : A → Traced' B) :
  lift r ≫= k
  = match r with
    | Ok a => k a
    | Raise e => ([], Raise e)
    end.
Proof. destruct r as [a|e]; cbn; [by destruct (k a)|done]. Qed.

Lemma declares_image_text_spec (valid : list string) cfg :
  declares_image_text valid cfg = true ↔ in_registry valid cfg.
Proof.
  unfold declares_image_text, in_registry.
  destruct (architectures cfg) as [archs|];
    [|split; [done|by intros (? & ? & [=] & _)]].
  split.
  - destruct archs as [|a0 archs]; [done|].
    intros (arch & Hin & Hv)%existsb_exists.
    exists (a0 :: archs), arch.
    apply list_elem_of_In in Hin. apply bool_decide_eq_true in Hv. done.
  - intros (? & arch & [= <-] & Hin & Hv).
    destruct archs as [|a0 archs]; [by apply elem_of_nil in Hin|].
    apply existsb_exists. exists arch.
    split; [by apply list_elem_of_In|by apply bool_decide_eq_true].
Qed.

Lemma model_kwargs_use_cache w m :
  model_kwargs w m !! "use_cache" = Some (KwPy (VBool false)).
Proof. reflexivity. Qed.

Lemma model_kwargs_device_map w m :
  model_kwargs w m !! "device_map"
  = Some match get_quantization_config w m with
         | Some _ => KwPy (get_kbit_device_map w)
         | None => KwPy (VStr "auto")
         end.
Proof. reflexivity. Qed.

(** One step of [main]: expose the next collaborator's answer and split
    on it. *)
Ltac run_step :=
  first
    [ match goal with
      | |- context [if ?b then call _ _ else call _ _] => destruct b eqn:?
      end
    | first [ rewrite traced_bind_call | rewrite traced_bind_lift ];
      match goal with
      | |- context [match ?r with Ok _ => _ | Raise _ => _ end] =>
          destruct r eqn:?
      end; cbn [fst snd] ].

(** Run [main] to each of its possible ends. *)
Ltac run_main t :=
  unfold main; repeat run_step;
  try (destruct (push_to_hub t) eqn:?; cbn [fst snd call mret traced_ret]).

(** Split a membership in an explicit trace into its cases. *)
Ltac trace_cases H :=
  repeat (apply elem_of_cons in H as [H|H]; [try discriminate H|]);
  try (by apply elem_of_nil in H).

(** After the architecture metadata is resolved, the second call is the
    model load, on the path and with the keyword arguments chosen by the
    registry test; no later call loads a model. *)
Lemma main_load_call w s t m cfg :
  AutoConfig_from_pretrained w (model_name_or_path m) = Ok cfg →
  ∃ rest,
    (main w s t m).1
    = CallAutoConfig (model_name_or_path m)
      :: (if declares_image_text
               (MODEL_FOR_IMAGE_TEXT_TO_TEXT_MAPPING_NAMES_values w) cfg
          then CallImageTextToText (model_name_or_path m)
                 (delete "use_cache" (model_kwargs w m))
          else CallCausalLM (model_name_or_path m) (model_kwargs w m))
      :: rest
    ∧ Forall (λ c, load_kwargs c = None) rest.
Proof.
  intros Hcfg. unfold main. rewrite traced_bind_call, Hcfg. cbn [fst snd].
  destruct (declares_image_text _ cfg); run_main t;
    eexists; (split; [reflexivity|]); repeat constructor.
Qed.

(** The trainer is built with the training arguments passed to [main], the
    tokenizer after the padding fallback, and the formatting closure. *)
Lemma main_trainer_call w s t m (a : TrainerArgs) :
  CallSFTTrainer a ∈ (main w s t m).1 →
  ∃ tok,
    AutoTokenizer_from_pretrained w (model_name_or_path m)
      (trust_remote_code m) true = Ok tok
    ∧ args a = t
    ∧ processing_class a
      = match pad_token tok with
        | None => {| pad_token := eos_token tok; eos_token := eos_token tok |}
        | Some _ => tok
        end
    ∧ formatting_func a = formatting_prompts_func (builtin_str w).
Proof.
  run_main t; intros H; trace_cases H;
    injection H as ->; eexists; (split; [reflexivity|]); done.
Qed.

(** ** Claims about [main] and the [__main__] block *)

(** C3.  When a declared architecture of the resolved config is in the
    image-text-to-text registry, the model-loading call is given no
    [use_cache] keyword; otherwise it is given [use_cache=False].  The
    keyword arguments are the same whatever the training arguments, the
    [gradient_checkpointing] flag among them. *)
Theorem model_load_use_cache w m cfg :
  AutoConfig_from_pretrained w (model_name_or_path m) = Ok cfg →
  (in_registry (MODEL_FOR_IMAGE_TEXT_TO_TEXT_MAPPING_NAMES_values w) cfg →
   ∃ kwargs : gmap string kwval,
     kwargs !! "use_cache" = None
     ∧ ∀ s t, ∃ rest,
         (main w s t m).1
         = CallAutoConfig (model_name_or_path m)
           :: CallImageTextToText (model_name_or_path m) kwargs :: rest
         ∧ Forall (λ c, load_kwargs c = None) rest)
  ∧ (¬ in_registry (MODEL_FOR_IMAGE_TEXT_TO_TEXT_MAPPING_NAMES_values w) cfg →
     ∃ kwargs : gmap string kwval,
       kwargs !! "use_cache" = Some (KwPy (VBool false))
       ∧ ∀ s t, ∃ rest,
           (main w s t m).1
           = CallAutoConfig (model_name_or_path m)
             :: CallCausalLM (model_name_or_path m) kwargs :: rest
           ∧ Forall (λ c, load_kwargs c = None) rest).
Proof.
  intros Hcfg. split; intros Hreg.
  - apply declares_image_text_spec in Hreg.
    exists (delete "use_cache" (model_kwargs w m)).
    split; [apply lookup_delete_eq|]. intros s t.
    destruct (main_load_call w s t m cfg Hcfg) as (rest & Htrace & Hrest).
    rewrite Hreg in Htrace. eauto.
  - assert (declares_image_text
              (MODEL_FOR_IMAGE_TEXT_TO_TEXT_MAPPING_NAMES_values w) cfg = false)
      as Hfalse.
    { apply not_true_is_false. by rewrite declares_image_text_spec. }
    exists (model_kwargs w m).
    split; [apply model_kwargs_use_cache|]. intros s t.
    destruct (main_load_call w s t m cfg Hcfg) as (rest & Htrace & Hrest).
    rewrite Hfalse in Htrace. eauto.
Qed.

(** C10.  A config that declares no architectures ([None] or the empty
    list) is loaded on the causal-language-model path with
    [use_cache=False]; the image-text-to-text loader is called only when a
    declared architecture is in the registry. *)
Theorem no_architectures_causal_lm w s t m cfg :
  AutoConfig_from_pretrained w (model_name_or_path m) = Ok cfg →
  (architectures cfg = None ∨ architectures cfg = Some [] →
   ∃ (kwargs : gmap string kwval) rest,
     (main w s t m).1
     = CallAutoConfig (model_name_or_path m)
       :: CallCausalLM (model_name_or_path m) kwargs :: rest
     ∧ kwargs !! "use_cache" = Some (KwPy (VBool false)))
  ∧ (∀ name (kwargs : gmap string kwval),
       CallImageTextToText name kwargs ∈ (main w s t m).1 →
       in_registry (MODEL_FOR_IMAGE_TEXT_TO_TEXT_MAPPING_NAMES_values w) cfg).
Proof.
  intros Hcfg.
  destruct (main_load_call w s t m cfg Hcfg) as (rest & Htrace & Hrest).
  split.
  - intros Harch. exists (model_kwargs w m), rest.
    split; [|apply model_kwargs_use_cache].
    rewrite Htrace. unfold declares_image_text.
    by destruct Harch as [-> | ->].
  - intros name kwargs Hin. rewrite Htrace in Hin.
    apply elem_of_cons in Hin as [Hin|Hin]; [discriminate|].
    apply elem_of_cons in Hin as [Hin|Hin].
    + destruct (declares_image_text _ cfg) eqn:Hd; [|discriminate].
      by apply declares_image_text_spec.
    + rewrite Forall_forall in Hrest. by specialize (Hrest _ Hin).
Qed.

(** C8.  The model-loading call is given, as [device_map], the placement
    returned by [get_kbit_device_map()] when a quantization configuration
    is requested, and ['auto'] when none is. *)
Theorem device_map_placement w s t m cfg :
  AutoConfig_from_pretrained w (model_name_or_path m) = Ok cfg →
  ∃ (c : Call') (kwargs : gmap string kwval) rest,
    (main w s t m).1 = CallAutoConfig (model_name_or_path m) :: c :: rest
    ∧ load_kwargs c = Some kwargs
    ∧ Forall (λ c', load_kwargs c' = None) rest
    ∧ (∀ q, get_quantization_config w m = Some q →
         kwargs !! "device_map" = Some (KwPy (get_kbit_device_map w)))
    ∧ (get_quantization_config w m = None →
         kwargs !! "device_map" = Some (KwPy (VStr "auto"))).
Proof.
  intros Hcfg.
  destruct (main_load_call w s t m cfg Hcfg) as (rest & Htrace & Hrest).
  assert (∀ kw : gmap string kwval,
            kw !! "device_map" = model_kwargs w m !! "device_map" →
            (∀ q, get_quantization_config w m = Some q →
               kw !! "device_map" = Some (KwPy (get_kbit_device_map w)))
            ∧ (get_quantization_config w m = None →
               kw !! "device_map" = Some (KwPy (VStr "auto")))) as Hdev.
  { intros kw ->. rewrite model_kwargs_device_map.
    split; [intros q Hq|intros Hq]; by rewrite Hq. }
  destruct (declares_image_text _ cfg).
  - exists (CallImageTextToText (model_name_or_path m)
              (delete "use_cache" (model_kwargs w m))),
      (delete "use_cache" (model_kwargs w m)), rest.
    repeat (split; [done|]). apply Hdev. by apply lookup_delete_ne.
  - exists (CallCausalLM (model_name_or_path m) (model_kwargs w m)),
      (model_kwargs w m), rest.
    repeat (split; [done|]). by apply Hdev.
Qed.

(** C4.  The tokenizer handed to the trainer is the loaded one with its
    padding token set to its end-of-sequence token when it had none, and
    the loaded one untouched when it had a padding token. *)
Theorem pad_token_fallback w s t m (a : TrainerArgs) :
  CallSFTTrainer a ∈ (main w s t m).1 →
  ∃ tok,
    AutoTokenizer_from_pretrained w (model_name_or_path m)
      (trust_remote_code m) true = Ok tok
    ∧ eos_token (processing_class a) = eos_token tok
    ∧ (pad_token tok = None →
       pad_token (processing_class a) = eos_token tok)
    ∧ (∀ p, pad_token tok = Some p → processing_class a = tok).
Proof.
  intros (tok & Htok & _ & -> & _)%main_trainer_call.
  exists tok. split; [done|].
  destruct (pad_token tok) as [p|]; repeat split; done.
Qed.

(** C5.  Once [train()] has returned, the next call saves the model to
    [output_dir]; when the save returns, the model is pushed, tagged with
    the dataset name, exactly when [push_to_hub] is set.  No save or push
    happens earlier, so a push always comes after the save. *)
Theorem save_then_push w s t m (tr : Trainer) :
  CallTrain tr ∈ (main w s t m).1 →
  train w tr = Ok () →
  ∃ pre post,
    (main w s t m).1
    = (pre ++ CallTrain tr :: CallSaveModel tr (output_dir t) :: post)%list
    ∧ Forall (λ c, is_persist c = false) pre
    ∧ (save_model w tr (output_dir t) = Ok () →
       post = if push_to_hub t
              then [CallPushToHub tr (dataset_name s)]
              else [])
    ∧ (∀ e, save_model w tr (output_dir t) = Raise e → post = []).
Proof.
  run_main t; intros H Htr; trace_cases H; injection H as ->;
    try congruence;
    match goal with
    | |- ∃ pre post, ?l = _ ∧ _ => exists (take 5 l), (drop 7 l)
    end;
    cbn [take drop];
    (split; [reflexivity|]); (split; [repeat constructor|]);
    split; intros; congruence.
Qed.

(** C6.  Whatever the parsed training configuration asks for, [main] runs
    with [report_to] set to the empty list and its other fields as parsed,
    and the trainer is built with that configuration. *)
Theorem report_to_overridden w s t m :
  parse_args_and_config w = Ok (s, t, m) →
  ∃ t',
    report_to t' = []
    ∧ output_dir t' = output_dir t
    ∧ push_to_hub t' = push_to_hub t
    ∧ gradient_checkpointing t' = gradient_checkpointing t
    ∧ script w = main w s t' m
    ∧ ∀ a : TrainerArgs,
        CallSFTTrainer a ∈ (script w).1 → report_to (args a) = [].
Proof.
  intros Hparse.
  assert (script w
          = main w s {| output_dir := output_dir t;
                        push_to_hub := push_to_hub t;
                        gradient_checkpointing := gradient_checkpointing t;
                        report_to := [] |} m) as Hscript.
  { unfold script. by rewrite traced_bind_lift, Hparse. }
  exists {| output_dir := output_dir t;
            push_to_hub := push_to_hub t;
            gradient_checkpointing := gradient_checkpointing t;
            report_to := [] |}.
  do 4 (split; [reflexivity|]). split; [exact Hscript|].
  intros a Ha. rewrite Hscript in Ha.
  by apply main_trainer_call in Ha as (_ & _ & -> & _).
Qed.
(** ** Further properties of [main] and the [__main__] block *)



(** X13.  [main] returns normally exactly when the model was saved and that
    call returned, and, if [push_to_hub] is set, the push returned too. *)
Theorem main_success_iff_persisted w s t m :
  (main w s t m).2 = Ok ()
  ↔ ∃ tr,
      CallSaveModel tr (output_dir t) ∈ (main w s t m).1
      ∧ save_model w tr (output_dir t) = Ok ()
      ∧ (push_to_hub t = true →
         trainer_push_to_hub w tr (dataset_name s) = Ok ()).
Proof.
  run_main t; (split;
    [ intros H; try discriminate H;
      (eexists; split;
        [do 6 apply list_elem_of_further; apply list_elem_of_here|]);
      repeat match goal with u : () |- _ => destruct u end;
      (split; [done|]); intros; congruence
    | intros (tr & Hin & Hsave & Hpush); trace_cases Hin;
      injection Hin as ->; try congruence;
      try (specialize (Hpush eq_refl)); try congruence;
      repeat match goal with u : () |- _ => destruct u end; done ]).
Qed.

(** X14.  Nothing is persisted after a failure: a save call implies that
    training returned, and a push call implies moreover that the flag is
    set and the save returned. *)
Theorem main_persist_only_after_success w s t m (tr : Trainer) (d : string) :
  (CallSaveModel tr d ∈ (main w s t m).1 →
   d = output_dir t ∧ train w tr = Ok ())
  ∧ (CallPushToHub tr d ∈ (main w s t m).1 →
     d = dataset_name s ∧ push_to_hub t = true
     ∧ train w tr = Ok () ∧ save_model w tr (output_dir t) = Ok ()).
Proof.
  run_main t; (split; intros H; trace_cases H; injection H as -> ->;
    repeat match goal with u : () |- _ => destruct u end; done).
Qed.

(** X15.  When the loaded dataset has no split named [dataset_train_split], the
    run ends there with [KeyError]: model and tokenizer are already
    loaded, but no trainer is built and nothing is trained or saved. *)
Theorem main_missing_split w s t m (ds : gmap string (list pyval)) :
  CallLoadDataset (dataset_name s) (dataset_config s) ∈ (main w s t m).1 →
  load_dataset w (dataset_name s) (dataset_config s) = Ok ds →
  ds !! dataset_train_split s = None →
  (main w s t m).2 = Raise KeyError
  ∧ length (main w s t m).1 = 4%nat.
Proof.
  run_main t; intros H Hds Hsplit; trace_cases H; simplify_eq;
    match goal with
    | H : match ?d !! _ with _ => _ end = _ |- _ => rewrite Hsplit in H
    end; simplify_eq; done.
Qed.

(** X16.  The tokenizer is always requested for the model's own identifier, with
    the same [trust_remote_code] setting as the model and the fast
    variant. *)
Theorem main_tokenizer_request w s t m (name : string) (trust use_fast : bool) :
  CallAutoTokenizer name trust use_fast ∈ (main w s t m).1 →
  name = model_name_or_path m
  ∧ trust = trust_remote_code m
  ∧ use_fast = true
  ∧ ∃ c (kwargs : gmap string kwval),
      c ∈ (main w s t m).1
      ∧ load_kwargs c = Some kwargs
      ∧ kwargs !! "trust_remote_code" = Some (KwPy (VBool trust)).
Proof.
  run_main t; intros H; trace_cases H; injection H as -> -> ->;
    (do 3 (split; [done|]));
    eexists; eexists;
    (split; [apply list_elem_of_further, list_elem_of_here|]);
    (split; [reflexivity|]);
    first [ done | by rewrite lookup_delete_ne ].
Qed.

(** X17.  On both loading paths the model is requested with the configured
    revision and [trust_remote_code], flash-attention 2, bfloat16 weights
    and the quantization config (or [None]) as returned by the helper; the
    call carries no other keyword than these, [device_map] and
    [use_cache]. *)
Theorem main_load_kwargs_fixed w s t m (c : Call') (kwargs : gmap string kwval) :
  c ∈ (main w s t m).1 →
  load_kwargs c = Some kwargs →
  kwargs !! "revision" = Some (KwPy (VStr (model_revision m)))
  ∧ kwargs !! "trust_remote_code" = Some (KwPy (VBool (trust_remote_code m)))
  ∧ kwargs !! "attn_implementation" = Some (KwPy (VStr "flash_attention_2"))
  ∧ kwargs !! "torch_dtype" = Some (KwDtype bfloat16)
  ∧ kwargs !! "quantization_config"
    = Some match get_quantization_config w m with
           | Some q => KwQuantization q
           | None => KwPy VNone
           end
  ∧ ∀ k, is_Some (kwargs !! k) →
         k ∈ ["revision"; "trust_remote_code"; "attn_implementation";
              "torch_dtype"; "use_cache"; "device_map"; "quantization_config"].
Proof.
  assert (∀ k, is_Some (model_kwargs w m !! k) →
               k ∈ ["revision"; "trust_remote_code"; "attn_implementation";
                    "torch_dtype"; "use_cache"; "device_map";
                    "quantization_config"]) as Hkeys.
  { intros k [v Hk]. unfold model_kwargs in Hk. cbv zeta in Hk.
    apply elem_of_list_to_map_2 in Hk.
    repeat (apply elem_of_cons in Hk;
            destruct Hk as [Hk|Hk];
            [injection Hk as -> _;
             repeat first [apply list_elem_of_here | apply list_elem_of_further]|]).
    by apply elem_of_nil in Hk. }
  run_main t; intros H Hkw;
    repeat (apply elem_of_cons in H; destruct H as [->|H]);
    try (by apply elem_of_nil in H);
    cbn in Hkw; try discriminate Hkw; injection Hkw as <-;
    (do 5 (split; [first [ done | by rewrite lookup_delete_ne ]|]));
    first [ exact Hkeys
          | intros k [v [_ Hk]%lookup_delete_Some]; apply Hkeys; eauto ].
Qed.

(** X18.  The trainer is built on the model that the loader returned, the train
    split of the loaded dataset, the adapter configuration returned by
    [get_peft_config], and the formatting closure. *)
Theorem main_trainer_inputs w s t m (a : TrainerArgs) :
  CallSFTTrainer a ∈ (main w s t m).1 →
  ∃ (c : Call') (ds : gmap string (list pyval)),
    c ∈ (main w s t m).1
    ∧ (∃ kwargs,
         c = CallImageTextToText (model_name_or_path m) kwargs
         ∧ AutoModelForImageTextToText_from_pretrained w
             (model_name_or_path m) kwargs = Ok (model a)
         ∨ c = CallCausalLM (model_name_or_path m) kwargs
           ∧ AutoModelForCausalLM_from_pretrained w
               (model_name_or_path m) kwargs = Ok (model a))
    ∧ load_dataset w (dataset_name s) (dataset_config s) = Ok ds
    ∧ ds !! dataset_train_split s = Some (train_dataset a)
    ∧ peft_config a = get_peft_config w m
    ∧ formatting_func a = formatting_prompts_func (builtin_str w).
Proof.
  run_main t; intros H; trace_cases H; injection H as ->;
    match goal with
    | Hs : match ?d !! _ with _ => _ end = Ok _ |- _ =>
        eexists; exists d;
        (split; [apply list_elem_of_further, list_elem_of_here|]);
        (split; [eexists; first [ left; split; [reflexivity|eassumption]
                                | right; split; [reflexivity|eassumption] ]|]);
        (split; [reflexivity|]);
        destruct (d !! dataset_train_split s); simplify_eq; done
    end.
Qed.

(** X19.  The training arguments play no part before the trainer is built: the
    first four calls (config, model, tokenizer, dataset) are the same for
    any two training configurations. *)
Theorem main_training_args_late w s t t' m :
  take 4 (main w s t m).1 = take 4 (main w s t' m).1.
Proof.
  unfold main.
  repeat first
    [ match goal with
      | |- context [if ?b then call _ _ else call _ _] => destruct b eqn:?
      end
    | progress (rewrite ?traced_bind_call, ?traced_bind_lift);
      repeat (match goal with
              | |- context [match ?r with Ok _ => _ | Raise _ => _ end] =>
                  destruct r eqn:?
              end; cbn [fst snd]) ];
    reflexivity.
Qed.

(** X20.  When argument parsing fails, the [__main__] block makes no call at
    all and ends with the parser's exception. *)
Theorem script_parse_failure w (e : exn) :
  parse_args_and_config w = Raise e →
  script w = ([], Raise e).
Proof. intros H. unfold script. by rewrite traced_bind_lift, H. Qed.
End ScriptFacts.


(** ** The claims on the sample run *)

(** C3 on a vision-language config and on a causal-language config. *)
Lemma model_load_use_cache_witness :
  (∃ kwargs : gmap string kwval,
     kwargs !! "use_cache" = None
     ∧ ∀ s t, ∃ rest,
         (main (sample_world_with (Some ["LlavaForConditionalGeneration"]) None)
            s t sample_model_args).1
         = CallAutoConfig "Qwen/Qwen2-0.5B"
           :: CallImageTextToText "Qwen/Qwen2-0.5B" kwargs :: rest
         ∧ Forall (λ c, load_kwargs c = None) rest)
  ∧ (∃ kwargs : gmap string kwval,
       kwargs !! "use_cache" = Some (KwPy (VBool false))
       ∧ ∀ s t, ∃ rest,
           (main sample_world s t sample_model_args).1
           = CallAutoConfig "Qwen/Qwen2-0.5B"
             :: CallCausalLM "Qwen/Qwen2-0.5B" kwargs :: rest
           ∧ Forall (λ c, load_kwargs c = None) rest).
Proof.
  split.
  - apply (proj1 (model_load_use_cache
                    (sample_world_with (Some ["LlavaForConditionalGeneration"]) None)
                    sample_model_args
                    {| architectures := Some ["LlavaForConditionalGeneration"] |}
                    eq_refl)).
    exists ["LlavaForConditionalGeneration"], "LlavaForConditionalGeneration".
    split; [reflexivity|]. split; apply list_elem_of_here.
  - apply (proj2 (model_load_use_cache sample_world sample_model_args
                    {| architectures := Some ["Qwen2ForCausalLM"] |} eq_refl)).
    intros (archs & arch & [= <-] & Hin & Hv).
    apply list_elem_of_singleton in Hin as ->.
    repeat (apply elem_of_cons in Hv as [Hv|Hv]; [discriminate Hv|]).
    by apply elem_of_nil in Hv.
Defined.

(** C10 on a config whose [architectures] is [None]. *)
Lemma no_architectures_causal_lm_witness :
  ∃ (kwargs : gmap string kwval) rest,
    (main (sample_world_with None None) sample_script_args sample_training_args
       sample_model_args).1
    = CallAutoConfig "Qwen/Qwen2-0.5B" :: CallCausalLM "Qwen/Qwen2-0.5B" kwargs :: rest
    ∧ kwargs !! "use_cache" = Some (KwPy (VBool false)).
Proof.
  apply (proj1 (no_architectures_causal_lm (sample_world_with None None)
                  sample_script_args sample_training_args sample_model_args
                  {| architectures := None |} eq_refl)).
  left. reflexivity.
Defined.

(** C8 with 4-bit style quantization requested and with none. *)
Lemma device_map_placement_witness :
  (∃ c (kwargs : gmap string kwval) rest,
     (main (sample_world_with (Some ["Qwen2ForCausalLM"]) (Some ()))
        sample_script_args sample_training_args sample_model_args).1
     = CallAutoConfig "Qwen/Qwen2-0.5B" :: c :: rest
     ∧ load_kwargs c = Some kwargs
     ∧ kwargs !! "device_map" = Some (KwPy (VDict {[ "" := VInt 0 ]})))
  ∧ (∃ c (kwargs : gmap string kwval) rest,
       (main sample_world sample_script_args sample_training_args
          sample_model_args).1
       = CallAutoConfig "Qwen/Qwen2-0.5B" :: c :: rest
       ∧ load_kwargs c = Some kwargs
       ∧ kwargs !! "device_map" = Some (KwPy (VStr "auto"))).
Proof.
  split.
  - destruct (device_map_placement
                (sample_world_with (Some ["Qwen2ForCausalLM"]) (Some ()))
                sample_script_args sample_training_args sample_model_args
                {| architectures := Some ["Qwen2ForCausalLM"] |} eq_refl)
      as (c & kwargs & rest & Htrace & Hkw & _ & Hq & _).
    exists c, kwargs, rest. split; [exact Htrace|]. split; [exact Hkw|].
    apply (Hq ()). reflexivity.
  - destruct (device_map_placement sample_world
                sample_script_args sample_training_args sample_model_args
                {| architectures := Some ["Qwen2ForCausalLM"] |} eq_refl)
      as (c & kwargs & rest & Htrace & Hkw & _ & _ & Hnone).
    exists c, kwargs, rest. split; [exact Htrace|]. split; [exact Hkw|].
    apply Hnone. reflexivity.
Defined.

(** C4 on the sample tokenizer, which has no padding token. *)
Lemma pad_token_fallback_witness :
  ∃ tok,
    AutoTokenizer_from_pretrained sample_world "Qwen/Qwen2-0.5B" false true = Ok tok
    ∧ eos_token (processing_class (sample_trainer_args sample_training_args))
      = eos_token tok
    ∧ (pad_token tok = None →
       pad_token (processing_class (sample_trainer_args sample_training_args))
       = eos_token tok)
    ∧ (∀ p, pad_token tok = Some p →
         processing_class (sample_trainer_args sample_training_args) = tok).
Proof.
  apply (pad_token_fallback sample_world sample_script_args sample_training_args
           sample_model_args (sample_trainer_args sample_training_args)).
  vm_compute. do 4 apply list_elem_of_further. apply list_elem_of_here.
Defined.

(** C5 on the sample run, where [push_to_hub] is set. *)
Lemma save_then_push_witness :
  ∃ pre post,
    (main sample_world sample_script_args sample_training_args sample_model_args).1
    = (pre ++ CallTrain () :: CallSaveModel () "Qwen2-0.5B-SFT" :: post)%list
    ∧ Forall (λ c, is_persist c = false) pre
    ∧ post = [CallPushToHub () "trl-lib/Capybara"].
Proof.
  destruct (save_then_push sample_world sample_script_args sample_training_args
              sample_model_args ()) as (pre & post & Htrace & Hpre & Hpost & _).
  - vm_compute. do 5 apply list_elem_of_further. apply list_elem_of_here.
  - reflexivity.
  - exists pre, post. split; [exact Htrace|]. split; [exact Hpre|].
    apply Hpost. reflexivity.
Defined.

(** C6 on the sample run, whose command line asks for a tracker. *)
Lemma report_to_overridden_witness :
  report_to sample_training_args = ["wandb"]
  ∧ ∃ t',
      report_to t' = []
      ∧ output_dir t' = "Qwen2-0.5B-SFT"
      ∧ push_to_hub t' = true
      ∧ gradient_checkpointing t' = true
      ∧ script sample_world
        = main sample_world sample_script_args t' sample_model_args
      ∧ ∀ a : TrainerArgs,
          CallSFTTrainer a ∈ (script sample_world).1 → report_to (args a) = [].
Proof.
  split; [reflexivity|].
  apply (report_to_overridden sample_world sample_script_args
           sample_training_args sample_model_args).
  reflexivity.
Defined.


(** ** The further properties on sample inputs *)

Lemma formatting_output_count_witness :
  ∃ c n,
    getitem_str (VDict {[ "chosen" := VList [turn "Hi"; turn "Hello!"] ]}) "chosen"
    = Ok c
    ∧ len c = Ok n
    ∧ Z.of_nat (length [instruction_text "Hi" "Hello!"])
      = if decide (n = 2) then 1 else n.
Proof.
  apply (formatting_output_count (λ _, "")
           (VDict {[ "chosen" := VList [turn "Hi"; turn "Hello!"] ]})
           [instruction_text "Hi" "Hello!"]).
  reflexivity.
Defined.

Lemma formatting_output_shape_witness :
  ∃ u a : string,
    instruction_text "Hi" "Hello!"
    = "### User: " +:+ u +:+ newline +:+ newline +:+ "### Assistant: " +:+ a.
Proof.
  apply (formatting_output_shape (λ _, "")
           (VDict {[ "chosen" := VList [turn "Hi"; turn "Hello!"] ]})
           [instruction_text "Hi" "Hello!"]).
  - reflexivity.
  - apply list_elem_of_here.
Defined.

Lemma formatting_missing_or_unsized_witness :
  formatting_prompts_func (λ _, "") (VDict {[ "rejected" := VList [] ]})
  = Raise KeyError
  ∧ formatting_prompts_func (λ _, "") (VDict {[ "chosen" := VNone ]})
    = Raise TypeError.
Proof.
  split.
  - apply (proj1 (formatting_missing_or_unsized (λ _, "")
                    {[ "rejected" := VList [] ]})).
    reflexivity.
  - apply (proj2 (formatting_missing_or_unsized (λ _, "")
                    {[ "chosen" := VNone ]}) VNone).
    + reflexivity.
    + left. reflexivity.
Defined.

(** The two-pair row [[[A, B], [C, D]]]. *)
Lemma formatting_two_lists_raise_witness :
  formatting_prompts_func (λ _, "")
    (VDict {[ "chosen" := VList [VList [turn "A"; turn "B"];
                                 VList [turn "C"; turn "D"]] ]})
  = Raise TypeError.
Proof.
  apply (formatting_two_lists_raise (λ _, "")
           {[ "chosen" := VList [VList [turn "A"; turn "B"];
                                 VList [turn "C"; turn "D"]] ]}
           [turn "A"; turn "B"] (VList [turn "C"; turn "D"])).
  reflexivity.
Defined.

Lemma formatting_single_pair_either_shape_witness :
  formatting_prompts_func (λ _, "")
    (VDict {[ "chosen" := VList [turn "Hi"; turn "Hello!"] ]})
  = formatting_prompts_func (λ _, "")
      (VDict {[ "chosen" := VList [VList [turn "Hi"; turn "Hello!"]] ]}).
Proof.
  apply (formatting_single_pair_either_shape (λ _, "")
           {[ "chosen" := VList [turn "Hi"; turn "Hello!"] ]}
           {[ "chosen" := VList [VList [turn "Hi"; turn "Hello!"]] ]}
           (turn "Hi") (turn "Hello!")); reflexivity.
Defined.

Lemma formatting_ignores_extras_witness :
  formatting_prompts_func (λ _, "")
    (VDict {[ "chosen" := VList [VList [turn "A"; turn "B"; turn "C"]] ]})
  = Ok ["### User: A

### Assistant: B"].
Proof.
  apply (formatting_ignores_extras (λ _, "")
           {[ "chosen" := VList [VList [turn "A"; turn "B"; turn "C"]] ]}
           [VList [turn "A"; turn "B"; turn "C"]] [("A", "B")]).
  - reflexivity.
  - cbn. lia.
  - repeat constructor.
    exists (turn "A"), (turn "B"), [turn "C"].
    split; [reflexivity|]. split; (eexists; split; reflexivity).
Defined.

Lemma formatting_content_not_checked_witness :
  formatting_prompts_func (λ _, "None")
    (VDict {[ "chosen" := VList [VDict {[ "content" := VNone ]}; turn "Hello!"] ]})
  = Ok ["### User: None

### Assistant: Hello!"].
Proof.
  apply (formatting_content_not_checked (λ _, "None")
           {[ "chosen" := VList [VDict {[ "content" := VNone ]}; turn "Hello!"] ]}
           {[ "content" := VNone ]} {[ "content" := VStr "Hello!" ]}
           VNone (VStr "Hello!")); reflexivity.
Defined.

Lemma formatting_concat_witness :
  formatting_prompts_func (λ _, "")
    (VDict {[ "chosen" := VList [VList [turn "A"; turn "B"];
                                 VList [turn "C"; turn "D"];
                                 VList [turn "E"; turn "F"];
                                 VList [turn "G"; turn "H"]] ]})
  = Ok [instruction_text "A" "B"; instruction_text "C" "D";
        instruction_text "E" "F"; instruction_text "G" "H"].
Proof.
  apply (formatting_concat (λ _, "")
           {[ "chosen" := VList [VList [turn "A"; turn "B"]] ]}
           {[ "chosen" := VList [VList [turn "C"; turn "D"];
                                 VList [turn "E"; turn "F"];
                                 VList [turn "G"; turn "H"]] ]}
           {[ "chosen" := VList [VList [turn "A"; turn "B"];
                                 VList [turn "C"; turn "D"];
                                 VList [turn "E"; turn "F"];
                                 VList [turn "G"; turn "H"]] ]}
           [VList [turn "A"; turn "B"]]
           [VList [turn "C"; turn "D"]; VList [turn "E"; turn "F"];
            VList [turn "G"; turn "H"]]
           [instruction_text "A" "B"]
           [instruction_text "C" "D"; instruction_text "E" "F";
            instruction_text "G" "H"]);
    first [ reflexivity | cbn; lia ].
Defined.

(** The second pair lacks its assistant turn. *)
Lemma formatting_first_failure_witness :
  formatting_prompts_func (λ _, "")
    (VDict {[ "chosen" := VList [VList [turn "A"; turn "B"];
                                 VList [turn "C"];
                                 VList [turn "E"; turn "F"]] ]})
  = Raise IndexError.
Proof.
  apply (formatting_first_failure (λ _, "")
           {[ "chosen" := VList [VList [turn "A"; turn "B"];
                                 VList [turn "C"];
                                 VList [turn "E"; turn "F"]] ]}
           [VList [turn "A"; turn "B"]] [VList [turn "E"; turn "F"]]
           (VList [turn "C"]) IndexError).
  - reflexivity.
  - cbn. lia.
  - repeat constructor.
    exists (turn "A"), (turn "B"), [].
    split; [reflexivity|]. split; (eexists _, _; split; reflexivity).
  - reflexivity.
Defined.

Lemma formatting_string_or_mapping_witness :
  formatting_prompts_func (λ _, "") (VDict {[ "chosen" := VStr "Hi" ]})
  = Raise TypeError
  ∧ formatting_prompts_func (λ _, "") (VDict {[ "chosen" := turn "Hi" ]})
    = Raise KeyError.
Proof.
  split.
  - apply (proj1 (formatting_string_or_mapping (λ _, "")
                    {[ "chosen" := VStr "Hi" ]}) "Hi").
    + reflexivity.
    + discriminate.
  - apply (proj2 (formatting_string_or_mapping (λ _, "")
                    {[ "chosen" := turn "Hi" ]}) {[ "content" := VStr "Hi" ]}).
    + reflexivity.
    + apply map_non_empty_singleton.
Defined.


Lemma main_success_iff_persisted_witness :
  ∃ tr,
    CallSaveModel tr "Qwen2-0.5B-SFT"
    ∈ (main sample_world sample_script_args sample_training_args
         sample_model_args).1
    ∧ save_model sample_world tr "Qwen2-0.5B-SFT" = Ok ()
    ∧ (true = true → trainer_push_to_hub sample_world tr "trl-lib/Capybara" = Ok ()).
Proof.
  apply (proj1 (main_success_iff_persisted sample_world sample_script_args
                  sample_training_args sample_model_args)).
  reflexivity.
Defined.

Lemma main_persist_only_after_success_witness :
  "trl-lib/Capybara" = dataset_name sample_script_args
  ∧ push_to_hub sample_training_args = true
  ∧ train sample_world () = Ok ()
  ∧ save_model sample_world () (output_dir sample_training_args) = Ok ().
Proof.
  apply (proj2 (main_persist_only_after_success sample_world sample_script_args
                  sample_training_args sample_model_args () "trl-lib/Capybara")).
  vm_compute. do 7 apply list_elem_of_further. apply list_elem_of_here.
Defined.

(** The dataset has a test split only. *)
Lemma main_missing_split_witness :
  (main (sample_world_variant (Raise (ExternalError "usage"))
           {[ "test" := [] ]} (Ok ()))
     sample_script_args sample_training_args sample_model_args).2
  = Raise KeyError
  ∧ length (main (sample_world_variant (Raise (ExternalError "usage"))
                    {[ "test" := [] ]} (Ok ()))
              sample_script_args sample_training_args sample_model_args).1
    = 4%nat.
Proof.
  apply (main_missing_split
           (sample_world_variant (Raise (ExternalError "usage"))
              {[ "test" := [] ]} (Ok ()))
           sample_script_args sample_training_args sample_model_args
           {[ "test" := [] ]}).
  - vm_compute. do 3 apply list_elem_of_further. apply list_elem_of_here.
  - reflexivity.
  - reflexivity.
Defined.

Lemma main_tokenizer_request_witness :
  "Qwen/Qwen2-0.5B" = model_name_or_path sample_model_args
  ∧ false = trust_remote_code sample_model_args
  ∧ true = true
  ∧ ∃ c (kwargs : gmap string kwval),
      c ∈ (main sample_world sample_script_args sample_training_args
             sample_model_args).1
      ∧ load_kwargs c = Some kwargs
      ∧ kwargs !! "trust_remote_code" = Some (KwPy (VBool false)).
Proof.
  apply (main_tokenizer_request sample_world sample_script_args
           sample_training_args sample_model_args "Qwen/Qwen2-0.5B" false true).
  vm_compute. do 2 apply list_elem_of_further. apply list_elem_of_here.
Defined.

Lemma main_load_kwargs_fixed_witness :
  model_kwargs sample_world sample_model_args !! "revision"
  = Some (KwPy (VStr "main"))
  ∧ model_kwargs sample_world sample_model_args !! "trust_remote_code"
    = Some (KwPy (VBool false))
  ∧ model_kwargs sample_world sample_model_args !! "attn_implementation"
    = Some (KwPy (VStr "flash_attention_2"))
  ∧ model_kwargs sample_world sample_model_args !! "torch_dtype"
    = Some (KwDtype bfloat16)
  ∧ model_kwargs sample_world sample_model_args !! "quantization_config"
    = Some (KwPy VNone)
  ∧ ∀ k, is_Some (model_kwargs sample_world sample_model_args !! k) →
         k ∈ ["revision"; "trust_remote_code"; "attn_implementation";
              "torch_dtype"; "use_cache"; "device_map"; "quantization_config"].
Proof.
  apply (main_load_kwargs_fixed sample_world sample_script_args
           sample_training_args sample_model_args
           (CallCausalLM "Qwen/Qwen2-0.5B"
              (model_kwargs sample_world sample_model_args))).
  - vm_compute. apply list_elem_of_further. apply list_elem_of_here.
  - reflexivity.
Defined.

Lemma main_trainer_inputs_witness :
  ∃ c (ds : gmap string (list pyval)),
    c ∈ (main sample_world sample_script_args sample_training_args
           sample_model_args).1
    ∧ (∃ kwargs,
         c = CallImageTextToText "Qwen/Qwen2-0.5B" kwargs
         ∧ AutoModelForImageTextToText_from_pretrained sample_world
             "Qwen/Qwen2-0.5B" kwargs = Ok ()
         ∨ c = CallCausalLM "Qwen/Qwen2-0.5B" kwargs
           ∧ AutoModelForCausalLM_from_pretrained sample_world
               "Qwen/Qwen2-0.5B" kwargs = Ok ())
    ∧ load_dataset sample_world "trl-lib/Capybara" None = Ok ds
    ∧ ds !! "train"
      = Some [VDict {[ "chosen" := VList [turn "Hi"; turn "Hello!"] ]}]
    ∧ None = get_peft_config sample_world sample_model_args
    ∧ formatting_prompts_func (λ _, "")
      = formatting_prompts_func (builtin_str sample_world).
Proof.
  apply (main_trainer_inputs sample_world sample_script_args
           sample_training_args sample_model_args
           (sample_trainer_args sample_training_args)).
  vm_compute. do 4 apply list_elem_of_further. apply list_elem_of_here.
Defined.

Lemma script_parse_failure_witness :
  script (sample_world_variant (Raise (ExternalError "usage"))
            {[ "train" := [] ]} (Ok ()))
  = ([], Raise (ExternalError "usage")).
Proof.
  apply (script_parse_failure
           (sample_world_variant (Raise (ExternalError "usage"))
              {[ "train" := [] ]} (Ok ()))
           (ExternalError "usage")).
  reflexivity.
Defined.
